(** * data_schema/models.py: schemas, field schemas and their accessors

    A shallow embedding of [DataSchema] and [FieldSchema] from
    [data_schema/models.py].  Python objects are mutated in place; here every
    operation returns the new state of the object it touches.  Python
    exceptions are values of [exn], carried by the error monad [result]. *)

From Stdlib Require Import ZArith Lia Ascii String.
From stdpp Require Import base option list sorting strings pretty gmap.

Local Open Scope Z_scope.

(** ** Exceptions and the error monad *)

Inductive exn : Type :=
  | IndexError
  | KeyError (key : string)
  | AttributeError (name : string)
  | TypeError
  | ConversionError.

Inductive result (A : Type) : Type :=
  | Ok (a : A)
  | Raise (e : exn).
Arguments Ok {A} a.
Arguments Raise {A} e.

Definition bind {A B : Type} (m : result A) (k : A -> result B) : result B :=
  match m with
  | Ok a => k a
  | Raise e => Raise e
  end.

Notation "'let!' x ':=' m 'in' k" := (bind m (fun x => k))
  (at level 10, x name, m at level 100, k at level 200).

(** ** Ordering of sort keys

    The keys of both sorts are nullable integers ([IntegerField(null=True)]).
    The source text runs on both lines of the interpreter that the Django
    releases it targets support ([super(DataSchemaManager, self)], classes
    deriving from [object], [ForeignKey] without [on_delete]); they differ on
    exactly the comparison the sorts make: Python 2 orders [None] before every
    integer, Python 3 raises [TypeError]. *)

Inductive python : Type := Py2 | Py3.

Definition py_lt (py : python) (a b : option Z) : result bool :=
  match a, b with
  | Some x, Some y => Ok (x <? y)
  | _, _ =>
      match py with
      | Py3 => Raise TypeError
      | Py2 =>
          match a, b with
          | None, Some _ => Ok true
          | _, _ => Ok false
          end
      end
  end.

(** [sorted(iterable, key=...)] and [list.sort(key=...)]: a stable sort that
    only ever asks [<] of two keys.  Each element is inserted in front of the
    already sorted rest of the list, after the elements whose key is strictly
    smaller. *)

Section Sorting.
Context {A : Type} (py : python) (key : A -> option Z).

Fixpoint py_insert (x : A) (l : list A) : result (list A) :=
  match l with
  | [] => Ok [x]
  | y :: ys =>
      let! b := py_lt py (key y) (key x) in
      if b : bool then (let! r := py_insert x ys in Ok (y :: r))
      else Ok (x :: y :: ys)
  end.

Fixpoint py_sorted (l : list A) : result (list A) :=
  match l with
  | [] => Ok []
  | x :: xs => let! r := py_sorted xs in py_insert x r
  end.
End Sorting.

(** The order Python 2 gives to nullable integers, as a total relation. *)
Definition key_ltb (a b : option Z) : bool :=
  match a, b with
  | Some x, Some y => x <? y
  | None, Some _ => true
  | _, _ => false
  end.

Definition key_le (a b : option Z) : Prop := key_ltb b a = false.

(** The sort the two interpreters agree on wherever both return: insertion
    under [key_ltb], as a pure function; and what it means for a list to be
    in the order of its keys, and for every comparison of a sort to be one
    the interpreter can make. *)
Section SortSpec.
Context {A : Type} (key : A -> option Z).

Fixpoint insert_by (x : A) (l : list A) : list A :=
  match l with
  | [] => [x]
  | y :: ys => if key_ltb (key y) (key x) then y :: insert_by x ys else x :: y :: ys
  end.

Fixpoint sort_by (l : list A) : list A :=
  match l with
  | [] => []
  | x :: xs => insert_by x (sort_by xs)
  end.

Definition by_key (a b : A) : Prop := key_le (key a) (key b).
End SortSpec.

Definition comparable (py : python) (keys : list (option Z)) : Prop :=
  py = Py2 \/ (length keys <= 1)%nat \/ Forall is_Some keys.

(** ** FieldSchema *)

Record FieldSchema : Type := mkFieldSchema {
  field_key : string;
  uniqueness_order : option Z;
  field_position : option Z;
  field_type : string;
  field_format : option string
}.

(** ** DataSchema

    [fieldschema_set] is the reverse relation as prefetched by
    [DataSchemaManager.get_queryset], in the order [all()] yields it;
    [_unique_fields] is the attribute [get_unique_fields] sets on the
    instance, absent until then.  [model_content_type] plays no part in the
    two methods and is left out.

    [get_unique_fields] sets the attribute to the selected fields and then
    sorts that list in place; the keys of the selected fields are integers,
    so the sort returns (see [get_unique_fields_first]) and the two steps are
    one here. *)

Record DataSchema : Type := mkDataSchema {
  fieldschema_set : list FieldSchema;
  _unique_fields : option (list FieldSchema)
}.

Definition get_unique_fields (py : python) (self : DataSchema)
  : result (list FieldSchema * DataSchema) :=
  match _unique_fields self with
  | Some cached => Ok (cached, self)
  | None =>
      let selected :=
        filter (fun field => uniqueness_order field <> None) (fieldschema_set self) in
      let! sorted := py_sorted py uniqueness_order selected in
      Ok (sorted, {| fieldschema_set := fieldschema_set self;
                     _unique_fields := Some sorted |})
  end.

Definition get_fields (py : python) (self : DataSchema)
  : result (list FieldSchema * DataSchema) :=
  let! sorted := py_sorted py field_position (fieldschema_set self) in
  Ok (sorted, self).

(** A change of the field collection of an instance (fields added, removed
    or fetched again); what the instance carries besides stays. *)
Definition with_fieldschema_set (fields : list FieldSchema) (self : DataSchema) : DataSchema :=
  {| fieldschema_set := fields; _unique_fields := _unique_fields self |}.

(** An operation is memoized if, once it has answered on an instance, it
    gives that answer again whatever became of the field collection. *)
Definition memoized
    (op : python -> DataSchema -> result (list FieldSchema * DataSchema)) : Prop :=
  forall py self r self', op py self = Ok (r, self') ->
  forall fields, exists self'',
    op py (with_fieldschema_set fields self') = Ok (r, self'').

(** ** Values and the objects a field reads from and writes to

    [value] has the values the statements below speak of: [None], integers,
    strings, and the bound methods a built-in type answers attribute reads
    with. *)

Inductive value : Type :=
  | VNone
  | VInt (z : Z)
  | VStr (s : string)
  | VMethod (name : string).

(** Objects that are neither a [list] nor a [dict].  A tuple holds items but
    has no attributes of its own, only those of its type (its methods); an
    instance of a user class, such as a Django model instance, resolves
    attribute names through [attrs] and stores assigned attributes there. *)
Inductive other : Type :=
  | Tuple (items : list value)
  | Instance (attrs : gmap string value).

Inductive pyobj : Type :=
  | PyList (items : list value)
  | PyDict (entries : gmap string value)
  | PyOther (o : other).

(** [FieldSchemaType]: the field schema types supported. *)
Module FieldSchemaType.
Definition DATE : string := "DATE".
Definition DATETIME : string := "DATETIME".
Definition INT : string := "INT".
Definition FLOAT : string := "FLOAT".
Definition STRING : string := "STRING".
End FieldSchemaType.

Inductive pytype : Type := py_date | py_datetime | py_int | py_float | py_str.

Definition FIELD_SCHEMA_PYTHON_TYPES : gmap string pytype :=
  <[FieldSchemaType.DATE := py_date]>
  (<[FieldSchemaType.DATETIME := py_datetime]>
  (<[FieldSchemaType.INT := py_int]>
  (<[FieldSchemaType.FLOAT := py_float]>
  (<[FieldSchemaType.STRING := py_str]> ∅)))).

(** [d[k]] on a dict. *)
Definition dict_getitem {V : Type} (d : gmap string V) (k : string) : result V :=
  match d !! k with
  | Some v => Ok v
  | None => Raise (KeyError k)
  end.

(** The index a list gives to a subscript: a negative subscript counts from
    the end, and anything outside [-len, len) is out of range. *)
Definition list_index {V : Type} (l : list V) (i : Z) : option nat :=
  let j := if i <? 0 then i + Z.of_nat (length l) else i in
  if (0 <=? j) && (j <? Z.of_nat (length l)) then Some (Z.to_nat j) else None.
Arguments list_index : simpl never.

(** [l[i]] on a list; the subscript [None] is not an index. *)
Definition list_getitem (l : list value) (i : option Z) : result value :=
  match i with
  | None => Raise TypeError
  | Some i =>
      match list_index l i with
      | Some n => match l !! n with Some v => Ok v | None => Raise IndexError end
      | None => Raise IndexError
      end
  end.

(** [l[i] = v] on a list. *)
Definition list_setitem (l : list value) (i : option Z) (v : value) : result (list value) :=
  match i with
  | None => Raise TypeError
  | Some i =>
      match list_index l i with
      | Some n => Ok (<[n := v]> l)
      | None => Raise IndexError
      end
  end.

Section Accessors.
(** The attributes of the built-in tuple type, and [convert_value] of
    [data_schema/convert_value.py]: both live outside [models.py]. *)
Variable tuple_attrs : gmap string value.
Variable convert_value : pytype -> value -> option string -> result value.

Definition getattr (o : other) (name : string) : result value :=
  let found :=
    match o with
    | Tuple _ => tuple_attrs !! name
    | Instance attrs => attrs !! name
    end in
  match found with
  | Some v => Ok v
  | None => Raise (AttributeError name)
  end.

Definition setattr (o : other) (name : string) (v : value) : result other :=
  match o with
  | Tuple _ => Raise (AttributeError name)
  | Instance attrs => Ok (Instance (<[name := v]> attrs))
  end.

(** [FieldSchema.set_value]: the result is the object after the call. *)
Definition set_value (self : FieldSchema) (obj : pyobj) (v : value) : result pyobj :=
  match obj with
  | PyList items =>
      let! items' := list_setitem items (field_position self) v in Ok (PyList items')
  | PyDict entries => Ok (PyDict (<[field_key self := v]> entries))
  | PyOther o =>
      let! o' := setattr o (field_key self) v in Ok (PyOther o')
  end.

(** The local [value] of [FieldSchema.get_value], before it is converted. *)
Definition raw_value (self : FieldSchema) (obj : pyobj) : result value :=
  match obj with
  | PyList items => list_getitem items (field_position self)
  | PyDict entries => dict_getitem entries (field_key self)
  | PyOther o => getattr o (field_key self)
  end.

Definition get_value (self : FieldSchema) (obj : pyobj) : result value :=
  let! value := raw_value self obj in
  let! python_type := dict_getitem FIELD_SCHEMA_PYTHON_TYPES (field_type self) in
  convert_value python_type value (field_format self).
End Accessors.

(** Modelled from the spec: the decimal digits that the "standard numeric
    parsing" of [convert_value] reads ([data_schema/convert_value.py] is
    outside [models.py]). *)
Definition digit_of (c : Ascii.ascii) : option Z :=
  let n := Z.of_N (Ascii.N_of_ascii c) in
  if (48 <=? n) && (n <=? 57) then Some (n - 48) else None.

(** Modelled from the spec: a run of decimal digits as an integer, for
    [convert_value]. *)
Fixpoint parse_digits (acc : Z) (s : string) : option Z :=
  match s with
  | EmptyString => Some acc
  | String c s' =>
      match digit_of c with
      | Some d => parse_digits (10 * acc + d) s'
      | None => None
      end
  end.

(** Modelled from the spec: the integer a string denotes, for
    [convert_value]: an optional sign and decimal digits. *)
Definition parse_int (s : string) : option Z :=
  match s with
  | EmptyString => None
  | String "-"%char (String _ _ as s') => Z.opp <$> parse_digits 0 s'
  | String "+"%char (String _ _ as s') => parse_digits 0 s'
  | _ => parse_digits 0 s
  end.

(** Modelled from the spec: [convert_value], whose module
    [data_schema/convert_value.py] is outside [models.py].  Section 4.1 of
    the specification on integers and strings: a value already of the target
    type is returned unchanged, an integer is parsed from a decimal string
    and [ConversionError] raised for any other string, a string is the
    decimal form of an integer.  Dates, date-times and floating point are
    left to [rest]. *)
Definition convert_value_spec
    (rest : pytype -> value -> option string -> result value)
    (target : pytype) (raw : value) (format : option string) : result value :=
  match target, raw with
  | py_int, VInt _ => Ok raw
  | py_str, VStr _ => Ok raw
  | py_int, VStr s =>
      match parse_int s with
      | Some z => Ok (VInt z)
      | None => Raise ConversionError
      end
  | py_str, VInt z => Ok (VStr (pretty z))
  | _, _ => rest target raw format
  end.

(** ** Slots

    The places of an object a field can name: an index of a list, a key of a
    dict, an attribute of an instance.  [field_slot] is the slot the field
    resolves to on an object, [read_slot] what an object holds there, and
    [writable] says when the assignment of [set_value] is one the object
    accepts. *)

Inductive slot : Type :=
  | Index (n : nat)
  | Key (k : string)
  | Attr (name : string).

Definition read_slot (obj : pyobj) (s : slot) : option value :=
  match obj, s with
  | PyList items, Index n => items !! n
  | PyDict entries, Key k => entries !! k
  | PyOther (Tuple items), Index n => items !! n
  | PyOther (Instance attrs), Attr name => attrs !! name
  | _, _ => None
  end.

Definition field_slot (self : FieldSchema) (obj : pyobj) : option slot :=
  match obj with
  | PyList items =>
      match field_position self with
      | Some p => Index <$> list_index items p
      | None => None
      end
  | PyDict _ => Some (Key (field_key self))
  | PyOther _ => Some (Attr (field_key self))
  end.

Definition writable (self : FieldSchema) (obj : pyobj) : Prop :=
  match obj with
  | PyList items =>
      exists p, field_position self = Some p /\
                - Z.of_nat (length items) <= p < Z.of_nat (length items)
  | PyDict _ => True
  | PyOther (Instance _) => True
  | PyOther (Tuple _) => False
  end.

(** ** The scenario of the specification

    Schema S with fields A and B, a field of an unsupported type, a field
    without a position, and the two methods of the tuple type. *)
Module Scenario.
Definition A : FieldSchema :=
  {| field_key := "a"; uniqueness_order := Some 1; field_position := Some 0;
     field_type := "INT"; field_format := None |}.
Definition B : FieldSchema :=
  {| field_key := "b"; uniqueness_order := Some 0; field_position := Some 1;
     field_type := "STRING"; field_format := None |}.
Definition S : DataSchema := {| fieldschema_set := [A; B]; _unique_fields := None |}.

Definition flag : FieldSchema :=
  {| field_key := "flag"; uniqueness_order := None; field_position := Some 0;
     field_type := "BOOL"; field_format := None |}.
Definition note : FieldSchema :=
  {| field_key := "note"; uniqueness_order := None; field_position := None;
     field_type := "STRING"; field_format := None |}.

Definition tuple_methods : gmap string value :=
  <["count" := VMethod "count"]> (<["index" := VMethod "index"]> ∅).
Definition convert : pytype -> value -> option string -> result value :=
  convert_value_spec (fun _ _ _ => Raise ConversionError).
End Scenario.

(** * Facts about the sort *)

Section SortingFacts.
Context {A : Type} (key : A -> option Z).
Local Abbreviation insert_by := (insert_by key).
Local Abbreviation sort_by := (sort_by key).
Local Abbreviation by_key := (by_key key).

Lemma py_lt_py2 a b : py_lt Py2 a b = Ok (key_ltb a b).
Proof. by destruct a, b. Qed.

Lemma py_lt_int py x y : py_lt py (Some x) (Some y) = Ok (key_ltb (Some x) (Some y)).
Proof. done. Qed.

Lemma py_lt_py3_none a b : a = None \/ b = None -> py_lt Py3 a b = Raise TypeError.
Proof. intros [-> | ->]; by destruct a || destruct b. Qed.

Lemma py_insert_py2 x l : py_insert Py2 key x l = Ok (insert_by x l).
Proof.
  induction l as [|y ys IH]; simpl; [done|].
  rewrite py_lt_py2; simpl. destruct (key_ltb _ _); [|done]. by rewrite IH.
Qed.

Lemma py_sorted_py2 l : py_sorted Py2 key l = Ok (sort_by l).
Proof.
  induction l as [|x xs IH]; simpl; [done|]. rewrite IH; simpl. apply py_insert_py2.
Qed.

Lemma insert_by_perm x l : insert_by x l ≡ₚ x :: l.
Proof.
  induction l as [|y ys IH]; simpl; [done|].
  destruct (key_ltb _ _); [|done]. rewrite IH. apply perm_swap.
Qed.

Lemma sort_by_perm l : sort_by l ≡ₚ l.
Proof.
  induction l as [|x xs IH]; simpl; [done|]. by rewrite insert_by_perm, IH.
Qed.

Lemma py_insert_int py x l :
  is_Some (key x) -> Forall (fun y => is_Some (key y)) l ->
  py_insert py key x l = Ok (insert_by x l).
Proof.
  intros [kx Hx] Hl. induction Hl as [|y ys [ky Hy] _ IH]; simpl; [done|].
  rewrite Hx, Hy, py_lt_int; simpl. destruct (ky <? kx); [|done].
  by rewrite IH.
Qed.

Lemma py_sorted_int py l :
  Forall (fun y => is_Some (key y)) l -> py_sorted py key l = Ok (sort_by l).
Proof.
  induction 1 as [|x xs Hx Hxs IH]; simpl; [done|]. rewrite IH; simpl.
  apply py_insert_int; [done|]. by rewrite sort_by_perm.
Qed.

Lemma py_sorted_single py x : py_sorted py key [x] = Ok [x].
Proof. done. Qed.

(** Whatever the interpreter, a sort that returns returns [sort_by]. *)
Lemma py_lt_ok py a b c : py_lt py a b = Ok c -> c = key_ltb a b.
Proof. destruct py, a, b; simpl; congruence. Qed.

Lemma py_lt_raise py a b e :
  py_lt py a b = Raise e -> e = TypeError /\ py = Py3 /\ (a = None \/ b = None).
Proof. destruct py, a, b; simpl; intros; simplify_eq; auto. Qed.

Lemma py_insert_ok py x l r : py_insert py key x l = Ok r -> r = insert_by x l.
Proof.
  revert r. induction l as [|y ys IH]; simpl; intros r H; [congruence|].
  destruct (py_lt py (key y) (key x)) as [c|] eqn:E; simpl in H; [|done].
  apply py_lt_ok in E as ->. destruct (key_ltb _ _); [|congruence].
  destruct (py_insert py key x ys) as [r'|]; simpl in H; [|done].
  rewrite <- (IH r' eq_refl). congruence.
Qed.

Lemma py_sorted_ok py l r : py_sorted py key l = Ok r -> r = sort_by l.
Proof.
  revert r. induction l as [|x xs IH]; simpl; intros r H; [congruence|].
  destruct (py_sorted py key xs) as [r'|]; simpl in H; [|done].
  rewrite <- (IH r' eq_refl). by apply (py_insert_ok py).
Qed.

Lemma py_insert_raise py x l e : py_insert py key x l = Raise e -> e = TypeError /\ py = Py3.
Proof.
  induction l as [|y ys IH]; simpl; intros H; [done|].
  destruct (py_lt py (key y) (key x)) as [c|] eqn:E; simpl in H.
  - destruct c; [|done].
    destruct (py_insert py key x ys); simpl in H; [done|]. apply IH. congruence.
  - injection H as <-. apply py_lt_raise in E. tauto.
Qed.

Lemma py_sorted_raise py l e : py_sorted py key l = Raise e -> e = TypeError /\ py = Py3.
Proof.
  induction l as [|x xs IH]; simpl; intros H; [done|].
  destruct (py_sorted py key xs); simpl in H.
  - by apply py_insert_raise in H.
  - apply IH. congruence.
Qed.

(** On Python 3 a sort returns only if no comparison met a [None] key:
    the list has a single element, or every key is an integer. *)
Lemma py3_sorted_ok_keys l r :
  py_sorted Py3 key l = Ok r ->
  (length l <= 1)%nat \/ Forall (fun y => is_Some (key y)) l.
Proof.
  revert r. induction l as [|x xs IH]; simpl; intros r H; [left; lia|].
  destruct (py_sorted Py3 key xs) as [a|] eqn:E; simpl in H; [|done].
  pose proof (py_sorted_ok _ _ _ E) as Ha.
  pose proof (sort_by_perm xs) as Hp. rewrite <- Ha in Hp.
  destruct a as [|y ys].
  { apply Permutation_nil_l in Hp as <-. left; simpl; lia. }
  right. simpl in H.
  destruct (py_lt Py3 (key y) (key x)) as [c|] eqn:Ec; simpl in H; [|done].
  assert (is_Some (key y) /\ is_Some (key x)) as [Hy Hx].
  { destruct (key y), (key x); simpl in Ec; try discriminate; split; eauto. }
  constructor; [done|]. rewrite <- Hp.
  destruct (IH _ eq_refl) as [Hlen | Hall]; [|by rewrite Hp].
  apply Permutation_length in Hp. simpl in Hp.
  destruct ys; [by repeat constructor | simpl in Hp; lia].
Qed.

Lemma py3_sorted_none l :
  (2 <= length l)%nat -> Exists (fun y => key y = None) l ->
  py_sorted Py3 key l = Raise TypeError.
Proof.
  intros Hlen Hex. destruct (py_sorted Py3 key l) as [r|e] eqn:E.
  - apply py3_sorted_ok_keys in E as [? | Hall]; [lia|].
    apply Exists_exists in Hex as (y & Hy & Hnone).
    rewrite Forall_forall in Hall. destruct (Hall y Hy) as [? ?]. congruence.
  - by apply py_sorted_raise in E as [-> _].
Qed.

(** The result is ordered by key, smallest first, [None] before integers. *)
Lemma key_ltb_asym a b : key_ltb a b = true -> key_ltb b a = false.
Proof. destruct a, b; simpl; try done. intros. lia. Qed.

Lemma key_le_trans a b c : key_le a b -> key_le b c -> key_le a c.
Proof. unfold key_le. destruct a, b, c; simpl; try done. lia. Qed.

Lemma insert_by_sorted x l :
  StronglySorted by_key l -> StronglySorted by_key (insert_by x l).
Proof.
  induction 1 as [|y ys Hs IH Hy]; simpl; [by repeat constructor|].
  destruct (key_ltb (key y) (key x)) eqn:E.
  - constructor; [done|]. rewrite insert_by_perm. constructor; [|done].
    by apply key_ltb_asym.
  - constructor; [by constructor|]. constructor; [done|].
    eapply Forall_impl; [exact Hy|]. intros z Hz. by eapply key_le_trans.
Qed.

Lemma sort_by_sorted l : StronglySorted by_key (sort_by l).
Proof. induction l; simpl; [constructor | by apply insert_by_sorted]. Qed.

(** The sort is stable: the elements that carry one key keep their order. *)
Lemma key_ltb_irrefl a : key_ltb a a = false.
Proof. destruct a; simpl; [lia|done]. Qed.

Lemma insert_by_filter k x l :
  filter (fun z => key z = k) (insert_by x l) = filter (fun z => key z = k) (x :: l).
Proof.
  induction l as [|y ys IH]; simpl; [done|].
  destruct (key_ltb (key y) (key x)) eqn:E; [|done].
  rewrite filter_cons, IH, !filter_cons.
  destruct (decide (key y = k)) as [Hy|]; [|done].
  destruct (decide (key x = k)) as [Hx|]; [|done].
  rewrite Hy, Hx, key_ltb_irrefl in E. done.
Qed.

Lemma sort_by_stable k l :
  filter (fun z => key z = k) (sort_by l) = filter (fun z => key z = k) l.
Proof.
  induction l as [|x xs IH]; simpl; [done|].
  by rewrite insert_by_filter, !filter_cons, IH.
Qed.
End SortingFacts.

Section SortingDomain.
Context {A : Type} (key : A -> option Z).

(** Where every comparison is one the interpreter can make, the sort
    returns, and returns [sort_by]. *)
Lemma py_sorted_comparable py l :
  comparable py (key <$> l) -> py_sorted py key l = Ok (sort_by key l).
Proof.
  intros [-> | [Hlen | Hall]].
  - apply py_sorted_py2.
  - rewrite length_fmap in Hlen.
    destruct l as [|x [|y l]]; simpl in *; [done | done | lia].
  - apply py_sorted_int. apply Forall_forall. intros y Hy.
    rewrite Forall_forall in Hall. apply Hall. by apply list_elem_of_fmap_2.
Qed.

(** Elsewhere it raises. *)
Lemma py_sorted_incomparable py l :
  ~ comparable py (key <$> l) -> py_sorted py key l = Raise TypeError.
Proof.
  intros Hn. destruct (py_sorted py key l) as [r|e] eqn:E.
  - exfalso. apply Hn. destruct py; [by left | right].
    apply py3_sorted_ok_keys in E as [Hlen | Hall].
    + left. by rewrite length_fmap.
    + right. apply Forall_forall. intros k Hk.
      apply list_elem_of_fmap in Hk as (y & -> & Hy).
      rewrite Forall_forall in Hall. by apply Hall.
  - by apply py_sorted_raise in E as [-> _].
Qed.

(** Keys that are all integers are sorted as integers. *)
Lemma key_le_int x y : key_le (Some x) (Some y) <-> x <= y.
Proof. unfold key_le; simpl. lia. Qed.

Lemma sorted_int_keys l :
  Forall (fun a => is_Some (key a)) l -> StronglySorted (by_key key) l ->
  exists zs, key <$> l = Some <$> zs /\ StronglySorted Z.le zs.
Proof.
  intros Hall Hs. induction Hs as [|a l Hs IH Ha].
  { exists []. split; [done | constructor]. }
  apply Forall_cons in Hall as [[z Hz] Hall].
  destruct (IH Hall) as (zs & Hk & Hzs).
  exists (z :: zs). split; [by rewrite !fmap_cons, Hz, Hk|].
  constructor; [done|].
  apply Forall_forall. intros z' Hz'.
  assert (Some z' ∈ key <$> l) as Hin by (rewrite Hk; by apply list_elem_of_fmap_2).
  apply list_elem_of_fmap in Hin as (b & Hb & Hbl).
  rewrite Forall_forall in Ha. specialize (Ha b Hbl).
  unfold by_key in Ha. rewrite Hz, <- Hb in Ha. by apply key_le_int.
Qed.
End SortingDomain.

(** * DataSchema *)

Lemma unique_filter_keys (fields : list FieldSchema) :
  Forall (fun f => is_Some (uniqueness_order f))
         (filter (fun field => uniqueness_order field <> None) fields).
Proof.
  apply Forall_forall. intros f Hf. apply list_elem_of_filter in Hf as [Hf _].
  destruct (uniqueness_order f); [eauto | done].
Qed.

(** The first call on an instance sorts the fields that have a uniqueness
    order and stores the list on the instance. *)
Lemma get_unique_fields_first py fields :
  let r := sort_by uniqueness_order
             (filter (fun field => uniqueness_order field <> None) fields) in
  get_unique_fields py (mkDataSchema fields None) = Ok (r, mkDataSchema fields (Some r)).
Proof.
  unfold get_unique_fields; simpl.
  by rewrite (py_sorted_int _ _ _ (unique_filter_keys fields)).
Qed.

(** C1: on an instance whose fields are loaded, [get_unique_fields] returns,
    on its first call and on the next, the owned fields that have a
    uniqueness order, each as often as it is owned and no other, in ascending
    uniqueness order; a field whose uniqueness order is null is not in the
    result. *)
Theorem get_unique_fields_sorted py fields :
  exists r,
    get_unique_fields py (mkDataSchema fields None)
      = Ok (r, mkDataSchema fields (Some r)) /\
    get_unique_fields py (mkDataSchema fields (Some r))
      = Ok (r, mkDataSchema fields (Some r)) /\
    r ≡ₚ filter (fun field => uniqueness_order field <> None) fields /\
    (forall f, f ∈ r <-> f ∈ fields /\ uniqueness_order f <> None) /\
    (exists orders, uniqueness_order <$> r = Some <$> orders /\
                    StronglySorted Z.le orders).
Proof.
  eexists. split; [apply get_unique_fields_first|]. split; [done|].
  pose proof (sort_by_perm uniqueness_order
    (filter (fun field => uniqueness_order field <> None) fields)) as Hp.
  split; [done|]. split.
  - intros f. rewrite Hp, list_elem_of_filter. tauto.
  - apply sorted_int_keys; [|apply sort_by_sorted].
    rewrite Hp. apply unique_filter_keys.
Qed.

Example get_unique_fields_scenario py :
  get_unique_fields py Scenario.S
    = Ok ([Scenario.B; Scenario.A],
          mkDataSchema [Scenario.A; Scenario.B] (Some [Scenario.B; Scenario.A])).
Proof. by destruct py. Qed.

(** Wherever the positions can be compared (on Python 3: no null position
    among two fields or more), [get_fields] returns the owned fields, each
    as often as it is owned and no other, in ascending order of position,
    and leaves the instance as it was. *)
Theorem get_fields_sorted py self :
  comparable py (field_position <$> fieldschema_set self) ->
  exists r,
    get_fields py self = Ok (r, self) /\
    r ≡ₚ fieldschema_set self /\
    StronglySorted (by_key field_position) r.
Proof.
  intros Hc. exists (sort_by field_position (fieldschema_set self)).
  unfold get_fields. rewrite (py_sorted_comparable _ _ _ Hc). simpl.
  split; [done|]. split; [apply sort_by_perm | apply sort_by_sorted].
Qed.

Lemma get_fields_sorted_witness :
  comparable Py3 (field_position <$> fieldschema_set Scenario.S) /\
  exists r, get_fields Py3 Scenario.S = Ok (r, Scenario.S) /\
            r ≡ₚ fieldschema_set Scenario.S /\
            StronglySorted (by_key field_position) r.
Proof.
  assert (comparable Py3 (field_position <$> fieldschema_set Scenario.S)) as Hc.
  { right; right. repeat constructor; eauto. }
  split; [exact Hc | exact (get_fields_sorted Py3 Scenario.S Hc)].
Defined.

Example get_fields_scenario py :
  get_fields py Scenario.S = Ok ([Scenario.A; Scenario.B], Scenario.S).
Proof. by destruct py. Qed.

(** C2: on Python 3 [get_fields] does not return the owned fields of every
    schema.  The schema that owns A, [note] and B, where [note] has no
    position, gets [TypeError] and no listing; on Python 2 the same schema
    is listed as [note; A; B], each owned field once, in the order of the
    positions. *)
Theorem get_fields_listing_fails :
  let self := mkDataSchema [Scenario.A; Scenario.note; Scenario.B] None in
  get_fields Py3 self = Raise TypeError /\
  (forall r self', get_fields Py3 self <> Ok (r, self')) /\
  get_fields Py2 self = Ok ([Scenario.note; Scenario.A; Scenario.B], self).
Proof. split; [reflexivity|]. split; [intros r self' H; discriminate H | reflexivity]. Qed.

(** Without a guard on the interpreter: any list [get_fields] returns is the
    sorted field collection, and it raises nothing but [TypeError]. *)
Lemma get_fields_ok py self r self' :
  get_fields py self = Ok (r, self') ->
  r = sort_by field_position (fieldschema_set self) /\ self' = self.
Proof.
  unfold get_fields. intros H.
  destruct (py_sorted py field_position (fieldschema_set self)) as [a|] eqn:E;
    simpl in H; [|done].
  apply py_sorted_ok in E. by simplify_eq.
Qed.

(** On Python 2 a null position is a key like any other, ordered before
    every integer: the listing returns and holds every field. *)
Lemma get_fields_py2 self :
  exists r, get_fields Py2 self = Ok (r, self) /\ r ≡ₚ fieldschema_set self /\
            StronglySorted (by_key field_position) r.
Proof.
  unfold get_fields. rewrite py_sorted_py2. simpl. eexists. split; [done|].
  split; [apply sort_by_perm | apply sort_by_sorted].
Qed.

(** On Python 3 a null position among two fields or more stops the sort. *)
Lemma get_fields_py3_null self :
  (2 <= length (fieldschema_set self))%nat ->
  Exists (fun f => field_position f = None) (fieldschema_set self) ->
  get_fields Py3 self = Raise TypeError.
Proof.
  intros Hlen Hex. unfold get_fields. by rewrite py3_sorted_none.
Qed.

(** C8: on Python 3 the listing of a schema that holds [note], whose
    position is null, next to [B] raises [TypeError]; on Python 2 it is
    [note; B]. *)
Theorem get_fields_null_position :
  let self := mkDataSchema [Scenario.note; Scenario.B] None in
  get_fields Py3 self = Raise TypeError /\
  get_fields Py2 self = Ok ([Scenario.note; Scenario.B], self).
Proof. split; reflexivity. Qed.

(** [get_unique_fields] returns on every instance. *)
Lemma get_unique_fields_total py self :
  exists r self', get_unique_fields py self = Ok (r, self').
Proof.
  destruct self as [fields [cached|]].
  - by exists cached, (mkDataSchema fields (Some cached)).
  - eexists _, _. apply get_unique_fields_first.
Qed.

Lemma get_unique_fields_cached py self r self' :
  get_unique_fields py self = Ok (r, self') -> _unique_fields self' = Some r.
Proof.
  unfold get_unique_fields. destruct (_unique_fields self) as [cached|] eqn:Hc.
  - intros H. by simplify_eq.
  - destruct (py_sorted _ _ _); simpl; intros H; by simplify_eq.
Qed.

(** C7, as the code has it: [get_unique_fields] returns on every instance,
    and once it has returned a list on an instance it returns that list on
    every later call, whatever became of the field collection; only an
    instance that does not carry the list computes it.  [get_fields] keeps
    nothing: each call sorts the field collection the instance has then and
    leaves the instance as it was. *)
Theorem get_unique_fields_memoized :
  memoized get_unique_fields /\
  (forall py self, exists r self', get_unique_fields py self = Ok (r, self')) /\
  (forall py self fields,
     comparable py (field_position <$> fields) ->
     get_fields py (with_fieldschema_set fields self)
       = Ok (sort_by field_position fields, with_fieldschema_set fields self)).
Proof.
  split; [|split].
  - intros py self r self' H fields.
    apply get_unique_fields_cached in H.
    exists (with_fieldschema_set fields self').
    unfold get_unique_fields. simpl. by rewrite H.
  - apply get_unique_fields_total.
  - intros py self fields Hc. unfold get_fields. cbn [fieldschema_set with_fieldschema_set].
    by rewrite (py_sorted_comparable _ _ _ Hc).
Qed.

(** C7 as stated fails for [get_fields]: called on S, and called again on
    the same instance once B alone is left in its field collection, it
    answers [A; B] and then [B]. *)
Lemma get_fields_not_memoized :
  get_fields Py3 Scenario.S = Ok ([Scenario.A; Scenario.B], Scenario.S) /\
  get_fields Py3 (with_fieldschema_set [Scenario.B] Scenario.S)
    = Ok ([Scenario.B], with_fieldschema_set [Scenario.B] Scenario.S) /\
  ~ memoized get_fields.
Proof.
  split; [done|]. split; [done|]. intros Hm.
  destruct (Hm Py3 Scenario.S _ _ eq_refl [Scenario.B]) as [self'' H].
  discriminate H.
Qed.

(** C9: both sorts are stable.  The fields of a result that carry one
    uniqueness order, or one position, are the fields of the collection that
    carry it, in the order the collection has them. *)
Theorem sorts_stable py fields :
  (exists r self',
     get_unique_fields py (mkDataSchema fields None) = Ok (r, self') /\
     forall order,
       filter (fun f => uniqueness_order f = Some order) r
         = filter (fun f => uniqueness_order f = Some order) fields) /\
  (forall cached, comparable py (field_position <$> fields) ->
   exists r self',
     get_fields py (mkDataSchema fields cached) = Ok (r, self') /\
     forall position,
       filter (fun f => field_position f = position) r
         = filter (fun f => field_position f = position) fields).
Proof.
  split.
  - eexists _, _. split; [apply get_unique_fields_first|].
    intros order. rewrite sort_by_stable, list_filter_filter.
    apply list_filter_iff. intros f. split; [tauto|].
    intros Hf. split; [done | congruence].
  - intros cached Hc. eexists _, _. unfold get_fields. cbn [fieldschema_set].
    rewrite (py_sorted_comparable _ _ _ Hc). simpl. split; [done|].
    intros position. apply sort_by_stable.
Qed.

Lemma sorts_stable_witness :
  let tie := mkFieldSchema "c" (Some 0) (Some 1) "INT" None in
  comparable Py3 (field_position <$> [Scenario.A; Scenario.B; tie]) /\
  get_unique_fields Py3 (mkDataSchema [Scenario.A; Scenario.B; tie] None)
    = Ok ([Scenario.B; tie; Scenario.A],
          mkDataSchema [Scenario.A; Scenario.B; tie]
                       (Some [Scenario.B; tie; Scenario.A])) /\
  exists r self',
    get_fields Py3 (mkDataSchema [Scenario.A; Scenario.B; tie] None) = Ok (r, self') /\
    forall position,
      filter (fun f => field_position f = position) r
        = filter (fun f => field_position f = position) [Scenario.A; Scenario.B; tie].
Proof.
  intros tie.
  assert (comparable Py3 (field_position <$> [Scenario.A; Scenario.B; tie])) as Hc.
  { right; right. repeat constructor; eauto. }
  split; [exact Hc|]. split; [reflexivity|].
  exact (proj2 (sorts_stable Py3 [Scenario.A; Scenario.B; tie]) None Hc).
Defined.

(** * FieldSchema *)

Section ListIndex.
Context {V : Type}.
Implicit Types (l : list V) (p : Z).

Lemma list_index_nonneg l p :
  0 <= p < Z.of_nat (length l) -> list_index l p = Some (Z.to_nat p).
Proof.
  intros Hp. unfold list_index.
  destruct (Z.ltb_spec p 0); [lia|].
  destruct (Z.leb_spec 0 p); [|lia].
  destruct (Z.ltb_spec p (Z.of_nat (length l))); [done | lia].
Qed.

Lemma list_index_negative l p :
  - Z.of_nat (length l) <= p < 0 ->
  list_index l p = Some (Z.to_nat (Z.of_nat (length l) + p)).
Proof.
  intros Hp. unfold list_index.
  destruct (Z.ltb_spec p 0); [|lia].
  destruct (Z.leb_spec 0 (p + Z.of_nat (length l))); [|lia].
  destruct (Z.ltb_spec (p + Z.of_nat (length l)) (Z.of_nat (length l))); [|lia].
  simpl. do 2 f_equal. lia.
Qed.

Lemma list_index_out_of_range l p :
  p < - Z.of_nat (length l) \/ Z.of_nat (length l) <= p -> list_index l p = None.
Proof.
  intros Hp. unfold list_index.
  destruct (Z.ltb_spec p 0).
  - destruct (Z.leb_spec 0 (p + Z.of_nat (length l))); [lia | done].
  - destruct (Z.leb_spec 0 p); [|done].
    destruct (Z.ltb_spec p (Z.of_nat (length l))); [lia | done].
Qed.

Lemma list_index_lt l p n : list_index l p = Some n -> (n < length l)%nat.
Proof.
  unfold list_index.
  destruct (Z.leb_spec 0 (if p <? 0 then p + Z.of_nat (length l) else p));
    [|done].
  destruct (Z.ltb_spec (if p <? 0 then p + Z.of_nat (length l) else p)
                       (Z.of_nat (length l))); [|done].
  simpl. intros [= <-]. lia.
Qed.

Lemma list_index_in_range l p :
  - Z.of_nat (length l) <= p < Z.of_nat (length l) ->
  exists n, list_index l p = Some n /\ (n < length l)%nat.
Proof.
  intros Hp. destruct (Z.lt_ge_cases p 0).
  - eexists. split; [apply list_index_negative; lia | lia].
  - eexists. split; [apply list_index_nonneg; lia | lia].
Qed.

Lemma list_index_length l l' p : length l = length l' -> list_index l p = list_index l' p.
Proof. unfold list_index. by intros ->. Qed.
End ListIndex.

(** The type table holds the five names of [FieldSchemaType] and no other. *)
Lemma python_type_unsupported (name : string) :
  name ∉ [FieldSchemaType.DATE; FieldSchemaType.DATETIME; FieldSchemaType.INT;
          FieldSchemaType.FLOAT; FieldSchemaType.STRING] ->
  FIELD_SCHEMA_PYTHON_TYPES !! name = None.
Proof.
  intros Hn. unfold FIELD_SCHEMA_PYTHON_TYPES.
  repeat (rewrite lookup_insert_ne; [|intros <-; apply Hn; set_solver]).
  apply lookup_empty.
Qed.

Lemma python_type_supported (name : string) :
  name ∈ [FieldSchemaType.DATE; FieldSchemaType.DATETIME; FieldSchemaType.INT;
          FieldSchemaType.FLOAT; FieldSchemaType.STRING] ->
  is_Some (FIELD_SCHEMA_PYTHON_TYPES !! name).
Proof.
  intros Hn. repeat (apply elem_of_cons in Hn as [-> | Hn]; [by eexists|]).
  by apply elem_of_nil in Hn.
Qed.

Section AccessorFacts.
Variable tuple_attrs : gmap string value.
Variable convert_value : pytype -> value -> option string -> result value.
Local Abbreviation get := (get_value tuple_attrs convert_value).
Local Abbreviation raw := (raw_value tuple_attrs).

(** What [get_value] does with the value it has read. *)
Lemma get_value_raw self obj v :
  raw self obj = Ok v ->
  get self obj =
    let! python_type := dict_getitem FIELD_SCHEMA_PYTHON_TYPES (field_type self) in
    convert_value python_type v (field_format self).
Proof. unfold get_value. by intros ->. Qed.

Lemma get_value_raw_raise self obj e :
  raw self obj = Raise e -> get self obj = Raise e.
Proof. unfold get_value. by intros ->. Qed.

(** A list whose position is null is subscripted with [None]. *)
Lemma get_value_null_position self items :
  field_position self = None -> get self (PyList items) = Raise TypeError.
Proof. intros Hp. apply get_value_raw_raise. simpl. by rewrite Hp. Qed.

(** What [set_value] does where the object does not take the assignment. *)
Lemma set_value_raises self obj v :
  ~ writable self obj ->
  exists e, set_value self obj v = Raise e /\
            e ∈ [IndexError; TypeError; AttributeError (field_key self)].
Proof.
  destruct obj as [items|entries|[items|attrs]]; simpl; intros Hn;
    [| by destruct Hn | | by destruct Hn].
  - destruct (field_position self) as [p|] eqn:Hp; simpl.
    + rewrite list_index_out_of_range; simpl.
      * eexists. split; [done | set_solver].
      * destruct (Z.lt_ge_cases p (- Z.of_nat (length items))); [by left|].
        destruct (Z.lt_ge_cases p (Z.of_nat (length items))); [|by right].
        exfalso. apply Hn. eauto.
    + eexists. split; [done | set_solver].
  - eexists. split; [done | set_solver].
Qed.
End AccessorFacts.

Section Accessing.
Variable tuple_attrs : gmap string value.
Variable convert_value : pytype -> value -> option string -> result value.
Variable self : FieldSchema.

(** The conversion [get_value] ends with: the Python type of the field type,
    then [convert_value] with the format of the field. *)
Local Abbreviation converted v :=
  (let! python_type := dict_getitem FIELD_SCHEMA_PYTHON_TYPES (field_type self) in
   convert_value python_type v (field_format self)).

(** C3: [get_value] reads a list at the position of the field (from the end
    if the position is negative), a dict at the key of the field and any
    other object at the attribute named by the key, and returns what
    [convert_value] makes of the value read, for the Python type of the field
    type and with the format of the field. *)
Theorem get_value_dispatch :
  (forall items p v,
     field_position self = Some p -> 0 <= p -> items !! Z.to_nat p = Some v ->
     get_value tuple_attrs convert_value self (PyList items) = converted v) /\
  (forall items p v,
     field_position self = Some p -> p < 0 -> 0 <= Z.of_nat (length items) + p ->
     items !! Z.to_nat (Z.of_nat (length items) + p) = Some v ->
     get_value tuple_attrs convert_value self (PyList items) = converted v) /\
  (forall entries v,
     entries !! field_key self = Some v ->
     get_value tuple_attrs convert_value self (PyDict entries) = converted v) /\
  (forall attrs v,
     attrs !! field_key self = Some v ->
     get_value tuple_attrs convert_value self (PyOther (Instance attrs)) = converted v) /\
  (forall items v,
     tuple_attrs !! field_key self = Some v ->
     get_value tuple_attrs convert_value self (PyOther (Tuple items)) = converted v).
Proof.
  repeat split.
  - intros items p v Hp Hge Hv. apply get_value_raw. simpl. rewrite Hp. simpl.
    apply lookup_lt_Some in Hv as Hlt.
    rewrite list_index_nonneg by lia. by rewrite Hv.
  - intros items p v Hp Hneg Hge Hv. apply get_value_raw. simpl. rewrite Hp. simpl.
    rewrite list_index_negative by lia. by rewrite Hv.
  - intros entries v Hv. apply get_value_raw. simpl. unfold dict_getitem.
    by rewrite Hv.
  - intros attrs v Hv. apply get_value_raw. unfold raw_value, getattr. by rewrite Hv.
  - intros items v Hv. apply get_value_raw. unfold raw_value, getattr. by rewrite Hv.
Qed.

(** C4: where the slot of the field does not exist, [get_value] raises the
    exception of the failed access: [IndexError] for a position outside the
    list, [KeyError] with the key for a key the dict lacks, [AttributeError]
    with the key for an attribute the object lacks.  Where the value was read
    and the field type is supported, an exception of [convert_value] is the
    exception of [get_value]. *)
Theorem get_value_errors :
  (forall items p,
     field_position self = Some p ->
     p < - Z.of_nat (length items) \/ Z.of_nat (length items) <= p ->
     get_value tuple_attrs convert_value self (PyList items) = Raise IndexError) /\
  (forall entries,
     entries !! field_key self = None ->
     get_value tuple_attrs convert_value self (PyDict entries)
       = Raise (KeyError (field_key self))) /\
  (forall attrs,
     attrs !! field_key self = None ->
     get_value tuple_attrs convert_value self (PyOther (Instance attrs))
       = Raise (AttributeError (field_key self))) /\
  (forall items,
     tuple_attrs !! field_key self = None ->
     get_value tuple_attrs convert_value self (PyOther (Tuple items))
       = Raise (AttributeError (field_key self))) /\
  (forall obj v python_type e,
     raw_value tuple_attrs self obj = Ok v ->
     FIELD_SCHEMA_PYTHON_TYPES !! field_type self = Some python_type ->
     convert_value python_type v (field_format self) = Raise e ->
     get_value tuple_attrs convert_value self obj = Raise e).
Proof.
  repeat split.
  - intros items p Hp Hout. apply get_value_raw_raise. simpl. rewrite Hp. simpl.
    by rewrite list_index_out_of_range.
  - intros entries Hk. apply get_value_raw_raise. simpl. unfold dict_getitem.
    by rewrite Hk.
  - intros attrs Hk. apply get_value_raw_raise. unfold raw_value, getattr. by rewrite Hk.
  - intros items Hk. apply get_value_raw_raise. unfold raw_value, getattr. by rewrite Hk.
  - intros obj v python_type e Hv Hty He. rewrite (get_value_raw _ _ _ _ _ Hv).
    unfold dict_getitem. by rewrite Hty.
Qed.

(** C5: a field whose type is none of the five of [FieldSchemaType] has no
    Python type in the table: once the value is read, [get_value] raises the
    [KeyError] of the table, with the field type, whatever [convert_value]
    is. *)
Theorem get_value_unsupported_type obj v :
  field_type self ∉ [FieldSchemaType.DATE; FieldSchemaType.DATETIME;
                     FieldSchemaType.INT; FieldSchemaType.FLOAT;
                     FieldSchemaType.STRING] ->
  raw_value tuple_attrs self obj = Ok v ->
  get_value tuple_attrs convert_value self obj = Raise (KeyError (field_type self)).
Proof.
  intros Hty Hv. rewrite (get_value_raw _ _ _ _ _ Hv). unfold dict_getitem.
  by rewrite python_type_unsupported.
Qed.

(** C6: where the object takes the assignment (a list with the position
    inside it, a dict, an instance), [set_value] returns, the object then
    holds the value given, as given, in the slot of the field, which is what
    [get_value] reads there before converting, and every other slot of the
    object holds what it held. *)
Theorem set_value_frame obj v :
  writable self obj ->
  exists obj' s,
    set_value self obj v = Ok obj' /\
    field_slot self obj = Some s /\
    field_slot self obj' = Some s /\
    raw_value tuple_attrs self obj' = Ok v /\
    read_slot obj' s = Some v /\
    forall s', s' <> s -> read_slot obj' s' = read_slot obj s'.
Proof.
  destruct obj as [items|entries|[items|attrs]]; simpl; intros Hw; [| | done |].
  - destruct Hw as (p & Hp & Hrange).
    destruct (list_index_in_range items p Hrange) as (n & Hn & Hlt).
    exists (PyList (<[n := v]> items)), (Index n).
    unfold set_value, raw_value, field_slot, list_setitem, list_getitem.
    rewrite Hp, (list_index_length (<[n := v]> items) items) by apply length_insert.
    rewrite Hn. simpl. rewrite list_lookup_insert_eq by done.
    repeat split; try done.
    intros [m|k|a] Hne; try done.
    apply list_lookup_insert_ne. congruence.
  - exists (PyDict (<[field_key self := v]> entries)), (Key (field_key self)).
    simpl. unfold dict_getitem. rewrite lookup_insert_eq.
    repeat split; try done.
    intros [m|k|a] Hne; try done. simpl.
    apply lookup_insert_ne. congruence.
  - exists (PyOther (Instance (<[field_key self := v]> attrs))), (Attr (field_key self)).
    simpl. unfold getattr. rewrite lookup_insert_eq.
    repeat split; try done.
    intros [m|k|a] Hne; try done. simpl.
    apply lookup_insert_ne. congruence.
Qed.

(** C10: an object that is neither a list nor a dict is read and written
    through the attribute named by the key of the field.  A tuple is such an
    object: whatever its items and the position of the field, [get_value]
    answers from the attributes of the tuple type and [set_value] raises
    [AttributeError]; for a key that is no attribute of the tuple type both
    raise it, also where subscripting the items with the position returns. *)
Theorem other_objects_by_attribute o v :
  get_value tuple_attrs convert_value self (PyOther o)
    = (let! found := getattr tuple_attrs o (field_key self) in converted found) /\
  set_value self (PyOther o) v
    = (let! o' := setattr o (field_key self) v in Ok (PyOther o')) /\
  (forall items items',
     get_value tuple_attrs convert_value self (PyOther (Tuple items))
       = get_value tuple_attrs convert_value self (PyOther (Tuple items'))) /\
  (forall items,
     set_value self (PyOther (Tuple items)) v = Raise (AttributeError (field_key self))) /\
  (forall items,
     tuple_attrs !! field_key self = None ->
     get_value tuple_attrs convert_value self (PyOther (Tuple items))
       = Raise (AttributeError (field_key self))).
Proof.
  repeat split.
  intros items Hk. apply get_value_raw_raise. unfold raw_value, getattr. by rewrite Hk.
Qed.
End Accessing.

(** ** The scenarios of the specification on the accessors *)

Lemma get_value_dispatch_witness :
  get_value Scenario.tuple_methods Scenario.convert Scenario.A
            (PyList [VStr "5"; VStr "x"]) = Ok (VInt 5) /\
  get_value Scenario.tuple_methods Scenario.convert Scenario.B
            (PyList [VStr "5"; VStr "x"]) = Ok (VStr "x") /\
  get_value Scenario.tuple_methods Scenario.convert Scenario.B
            (PyList [VStr "5"; VStr "x"; VStr "y"; VStr "z"]) = Ok (VStr "x") /\
  get_value Scenario.tuple_methods Scenario.convert Scenario.A
            (PyDict (<["a" := VStr "5"]> ∅)) = Ok (VInt 5).
Proof.
  pose proof (get_value_dispatch Scenario.tuple_methods Scenario.convert Scenario.A)
    as (HlistA & _ & HdictA & _).
  pose proof (get_value_dispatch Scenario.tuple_methods Scenario.convert Scenario.B)
    as (HlistB & _).
  split; [|split; [|split]].
  - rewrite (HlistA [VStr "5"; VStr "x"] 0 (VStr "5") eq_refl (Z.le_refl 0) eq_refl).
    reflexivity.
  - rewrite (HlistB [VStr "5"; VStr "x"] 1 (VStr "x") eq_refl ltac:(lia) eq_refl).
    reflexivity.
  - rewrite (HlistB [VStr "5"; VStr "x"; VStr "y"; VStr "z"] 1 (VStr "x")
               eq_refl ltac:(lia) eq_refl).
    reflexivity.
  - rewrite (HdictA (<["a" := VStr "5"]> ∅) (VStr "5")); reflexivity.
Defined.

Lemma get_value_errors_witness :
  get_value Scenario.tuple_methods Scenario.convert Scenario.B (PyList [VStr "5"])
    = Raise IndexError /\
  get_value Scenario.tuple_methods Scenario.convert Scenario.A (PyDict ∅)
    = Raise (KeyError "a") /\
  get_value Scenario.tuple_methods Scenario.convert Scenario.A (PyOther (Instance ∅))
    = Raise (AttributeError "a") /\
  get_value Scenario.tuple_methods Scenario.convert Scenario.A (PyList [VStr "five"])
    = Raise ConversionError.
Proof.
  pose proof (get_value_errors Scenario.tuple_methods Scenario.convert Scenario.A)
    as (_ & HdictA & HattrA & _ & HconvA).
  pose proof (get_value_errors Scenario.tuple_methods Scenario.convert Scenario.B)
    as (HlistB & _).
  split; [|split; [|split]].
  - apply (HlistB [VStr "5"] 1 eq_refl). right. simpl. lia.
  - apply (HdictA ∅). reflexivity.
  - apply (HattrA ∅). reflexivity.
  - apply (HconvA (PyList [VStr "five"]) (VStr "five") py_int ConversionError);
      reflexivity.
Defined.

Lemma get_value_unsupported_type_witness :
  field_type Scenario.flag = "BOOL" /\
  get_value Scenario.tuple_methods Scenario.convert Scenario.flag (PyList [VStr "1"])
    = Raise (KeyError "BOOL").
Proof.
  split; [reflexivity|].
  apply (get_value_unsupported_type Scenario.tuple_methods Scenario.convert
           Scenario.flag (PyList [VStr "1"]) (VStr "1")); [|reflexivity].
  apply (bool_decide_unpack _). vm_compute. exact I.
Defined.

Lemma set_value_frame_witness :
  writable Scenario.A (PyOther (Instance (<["b" := VStr "x"]> ∅))) /\
  exists obj' s,
    set_value Scenario.A (PyOther (Instance (<["b" := VStr "x"]> ∅))) (VStr "5")
      = Ok obj' /\
    field_slot Scenario.A (PyOther (Instance (<["b" := VStr "x"]> ∅))) = Some s /\
    field_slot Scenario.A obj' = Some s /\
    raw_value Scenario.tuple_methods Scenario.A obj' = Ok (VStr "5") /\
    read_slot obj' s = Some (VStr "5") /\
    forall s', s' <> s ->
      read_slot obj' s' = read_slot (PyOther (Instance (<["b" := VStr "x"]> ∅))) s'.
Proof.
  split; [exact I|].
  exact (set_value_frame Scenario.tuple_methods Scenario.A
           (PyOther (Instance (<["b" := VStr "x"]> ∅))) (VStr "5") I).
Defined.

Lemma other_objects_by_attribute_witness :
  list_getitem [VStr "5"; VStr "x"] (field_position Scenario.A) = Ok (VStr "5") /\
  get_value Scenario.tuple_methods Scenario.convert Scenario.A
            (PyOther (Tuple [VStr "5"; VStr "x"])) = Raise (AttributeError "a") /\
  set_value Scenario.A (PyOther (Tuple [VStr "5"; VStr "x"])) (VInt 5)
    = Raise (AttributeError "a").
Proof.
  pose proof (other_objects_by_attribute Scenario.tuple_methods Scenario.convert
                Scenario.A (Tuple [VStr "5"; VStr "x"]) (VInt 5))
    as (_ & _ & _ & Hset & Hget).
  split; [reflexivity|]. split.
  - apply (Hget [VStr "5"; VStr "x"]). reflexivity.
  - apply (Hset [VStr "5"; VStr "x"]).
Defined.

Lemma get_unique_fields_memoized_witness :
  get_unique_fields Py3 Scenario.S
    = Ok ([Scenario.B; Scenario.A],
          mkDataSchema [Scenario.A; Scenario.B] (Some [Scenario.B; Scenario.A])) /\
  exists self'',
    get_unique_fields Py3
      (with_fieldschema_set [Scenario.B]
         (mkDataSchema [Scenario.A; Scenario.B] (Some [Scenario.B; Scenario.A])))
      = Ok ([Scenario.B; Scenario.A], self'').
Proof.
  split; [reflexivity|].
  exact (proj1 get_unique_fields_memoized Py3 Scenario.S _ _ eq_refl [Scenario.B]).
Defined.

(** * Further properties of the sorts *)

Section SortingMore.
Context {A : Type} (key : A -> option Z).

Lemma key_le_antisym a b : key_le a b -> key_le b a -> a = b.
Proof.
  unfold key_le. destruct a, b; simpl; try done.
  intros. f_equal. lia.
Qed.

(** A list already in the order of its keys is left as it is. *)
Lemma insert_by_front x l :
  Forall (by_key key x) l -> insert_by key x l = x :: l.
Proof.
  destruct 1 as [|y ys Hy _]; simpl; [done|].
  unfold by_key, key_le in Hy. by rewrite Hy.
Qed.

Lemma sort_by_sorted_id l : StronglySorted (by_key key) l -> sort_by key l = l.
Proof.
  induction 1 as [|x xs _ IH Hx]; simpl; [done|].
  rewrite IH. by apply insert_by_front.
Qed.

(** With keys that differ pairwise the result does not depend on the order
    of the input. *)
Lemma sort_by_perm_unique l l' :
  l ≡ₚ l' -> NoDup (key <$> l) -> sort_by key l = sort_by key l'.
Proof.
  intros Hp Hnd.
  apply (StronglySorted_unique_strong (by_key key));
    [| apply sort_by_sorted | apply sort_by_sorted
     | by rewrite !sort_by_perm].
  intros x1 x2 H1 H2 H12 H21.
  rewrite sort_by_perm in H1. rewrite sort_by_perm, <- Hp in H2.
  pose proof (key_le_antisym _ _ H12 H21) as Hk.
  apply list_elem_of_lookup in H1 as [i Hi]. apply list_elem_of_lookup in H2 as [j Hj].
  assert (i = j) as <-.
  { eapply NoDup_lookup; [exact Hnd | |].
    - rewrite list_lookup_fmap, Hi. reflexivity.
    - rewrite list_lookup_fmap, Hj. simpl. by rewrite Hk. }
  congruence.
Qed.

(** [None] keys come first, in the order of the input. *)
Lemma insert_by_none x l : key x = None -> insert_by key x l = x :: l.
Proof.
  intros Hx. destruct l as [|y ys]; simpl; [done|].
  rewrite Hx. by destruct (key y).
Qed.

Lemma insert_by_after_none x nones l :
  is_Some (key x) -> Forall (fun y => key y = None) nones ->
  insert_by key x (nones ++ l) = nones ++ insert_by key x l.
Proof.
  intros [k Hk] Hn. induction Hn as [|y ys Hy _ IH]; simpl; [done|].
  rewrite Hy, Hk. simpl. by rewrite IH.
Qed.

Lemma sort_by_none_first l :
  sort_by key l
    = filter (fun x => key x = None) l
      ++ sort_by key (filter (fun x => key x <> None) l).
Proof.
  induction l as [|x xs IH]; simpl; [done|].
  rewrite !filter_cons, IH.
  destruct (decide (key x = None)) as [Hx|Hx].
  - rewrite decide_False by tauto. by apply insert_by_none.
  - rewrite decide_True by done. simpl. apply insert_by_after_none.
    + by destruct (key x); [eexists|].
    + apply Forall_forall. intros y Hy. by apply list_elem_of_filter in Hy as [? _].
Qed.

(** [comparable] looks at the keys as a multiset. *)
Lemma comparable_perm py (keys keys' : list (option Z)) :
  keys ≡ₚ keys' -> comparable py keys -> comparable py keys'.
Proof.
  intros Hp [-> | [Hlen | Hall]]; [by left | right; left | right; right].
  - by rewrite <- Hp.
  - by rewrite <- Hp.
Qed.

Lemma py_sorted_comparable_iff py l :
  (exists r, py_sorted py key l = Ok r) <-> comparable py (key <$> l).
Proof.
  split.
  - intros [r Hr]. destruct py; [by left | right].
    apply py3_sorted_ok_keys in Hr as [Hlen | Hall].
    + left. by rewrite length_fmap.
    + right. apply Forall_forall. intros k Hk.
      apply list_elem_of_fmap in Hk as (y & -> & Hy).
      rewrite Forall_forall in Hall. by apply Hall.
  - intros Hc. eexists. by apply py_sorted_comparable.
Qed.
End SortingMore.

Lemma sorted_le_nodup_lt (zs : list Z) :
  StronglySorted Z.le zs -> NoDup zs -> StronglySorted Z.lt zs.
Proof.
  induction 1 as [|z zs _ IH Hz]; intros Hnd; [constructor|].
  apply NoDup_cons in Hnd as [Hnotin Hnd].
  constructor; [by apply IH|].
  apply Forall_forall. intros z' Hz'.
  rewrite Forall_forall in Hz. specialize (Hz z' Hz').
  assert (z <> z') by (intros ->; done). lia.
Qed.

(** * Further properties of DataSchema *)

(** [get_fields] returns exactly where the positions can be compared: on
    Python 2, or with at most one field, or with no null position; and
    [TypeError], on Python 3, is all it ever raises. *)
Theorem get_fields_returns_iff py self :
  ((exists r, get_fields py self = Ok (r, self))
     <-> comparable py (field_position <$> fieldschema_set self)) /\
  (forall e, get_fields py self = Raise e -> e = TypeError /\ py = Py3).
Proof.
  split; [split|].
  - intros [r Hr]. apply py_sorted_comparable_iff. unfold get_fields in Hr.
    destruct (py_sorted py field_position (fieldschema_set self)) as [a|]; [by eexists | done].
  - intros Hc. eexists. unfold get_fields. by rewrite (py_sorted_comparable _ _ _ Hc).
  - intros e He. unfold get_fields in He.
    destruct (py_sorted py field_position (fieldschema_set self)) as [a|e'] eqn:E;
      simpl in He; [done|].
    injection He as <-. by apply py_sorted_raise in E.
Qed.

(** A field collection that is already in the order of its positions is
    returned as it is. *)
Theorem sorted_collection_unchanged py self :
  StronglySorted (by_key field_position) (fieldschema_set self) ->
  comparable py (field_position <$> fieldschema_set self) ->
  get_fields py self = Ok (fieldschema_set self, self).
Proof.
  intros Hs Hc. unfold get_fields.
  by rewrite (py_sorted_comparable _ _ _ Hc), (sort_by_sorted_id _ _ Hs).
Qed.

Lemma sorted_collection_unchanged_witness :
  get_fields Py3 Scenario.S = Ok (fieldschema_set Scenario.S, Scenario.S).
Proof.
  apply sorted_collection_unchanged.
  - repeat constructor.
  - right; right. repeat constructor; eauto.
Defined.

(** Listing the fields that [get_fields] returned gives the same list
    again. *)
Theorem get_fields_idempotent py self r self' :
  get_fields py self = Ok (r, self') ->
  get_fields py (with_fieldschema_set r self') = Ok (r, with_fieldschema_set r self').
Proof.
  intros H.
  assert (comparable py (field_position <$> fieldschema_set self)) as Hc.
  { apply py_sorted_comparable_iff. unfold get_fields in H.
    destruct (py_sorted py field_position (fieldschema_set self)); [by eexists | done]. }
  apply get_fields_ok in H as [-> ->].
  unfold get_fields. cbn [fieldschema_set with_fieldschema_set].
  rewrite py_sorted_comparable.
  - simpl. by rewrite sort_by_sorted_id by apply sort_by_sorted.
  - eapply comparable_perm; [|exact Hc]. by rewrite sort_by_perm.
Qed.

Lemma get_fields_idempotent_witness :
  let fields := [Scenario.B; Scenario.A] in
  get_fields Py3 (mkDataSchema fields None)
    = Ok ([Scenario.A; Scenario.B], mkDataSchema fields None) /\
  get_fields Py3 (with_fieldschema_set [Scenario.A; Scenario.B] (mkDataSchema fields None))
    = Ok ([Scenario.A; Scenario.B],
          with_fieldschema_set [Scenario.A; Scenario.B] (mkDataSchema fields None)).
Proof.
  split; [reflexivity|].
  exact (get_fields_idempotent Py3 (mkDataSchema [Scenario.B; Scenario.A] None)
           [Scenario.A; Scenario.B] _ eq_refl).
Defined.

(** With positions that differ pairwise, [get_fields] does not depend on the
    order in which the field collection holds the fields. *)
Theorem get_fields_order_independent py fields fields' cached :
  fields ≡ₚ fields' ->
  NoDup (field_position <$> fields) ->
  comparable py (field_position <$> fields) ->
  exists r,
    get_fields py (mkDataSchema fields cached) = Ok (r, mkDataSchema fields cached) /\
    get_fields py (mkDataSchema fields' cached) = Ok (r, mkDataSchema fields' cached).
Proof.
  intros Hp Hnd Hc. exists (sort_by field_position fields).
  unfold get_fields. cbn [fieldschema_set].
  rewrite (py_sorted_comparable _ _ _ Hc). split; [done|].
  rewrite py_sorted_comparable.
  - simpl. by rewrite (sort_by_perm_unique _ _ _ Hp Hnd).
  - eapply comparable_perm; [|exact Hc]. by rewrite Hp.
Qed.

Lemma get_fields_order_independent_witness :
  exists r,
    get_fields Py3 (mkDataSchema [Scenario.A; Scenario.B] None)
      = Ok (r, mkDataSchema [Scenario.A; Scenario.B] None) /\
    get_fields Py3 (mkDataSchema [Scenario.B; Scenario.A] None)
      = Ok (r, mkDataSchema [Scenario.B; Scenario.A] None).
Proof.
  apply get_fields_order_independent.
  - apply perm_swap.
  - apply (bool_decide_unpack _). vm_compute. exact I.
  - right; right. repeat constructor; eauto.
Defined.

(** With uniqueness orders that differ pairwise, the first call of
    [get_unique_fields] does not depend on the order of the field collection
    either, and its result is strictly ascending. *)
Theorem get_unique_fields_order_independent py fields fields' :
  fields ≡ₚ fields' ->
  NoDup (uniqueness_order <$> filter (fun field => uniqueness_order field <> None) fields) ->
  exists r orders,
    get_unique_fields py (mkDataSchema fields None)
      = Ok (r, mkDataSchema fields (Some r)) /\
    get_unique_fields py (mkDataSchema fields' None)
      = Ok (r, mkDataSchema fields' (Some r)) /\
    uniqueness_order <$> r = Some <$> orders /\
    StronglySorted Z.lt orders.
Proof.
  intros Hp Hnd.
  set (selected := filter (fun field => uniqueness_order field <> None) fields) in *.
  pose proof (sort_by_perm uniqueness_order selected) as Hperm.
  destruct (sorted_int_keys uniqueness_order (sort_by uniqueness_order selected))
    as (orders & Horders & Hsorted).
  { rewrite Hperm. apply unique_filter_keys. }
  { apply sort_by_sorted. }
  exists (sort_by uniqueness_order selected), orders.
  split; [apply get_unique_fields_first|]. split; [|split; [done|]].
  - rewrite get_unique_fields_first. simpl.
    assert (selected ≡ₚ filter (fun field => uniqueness_order field <> None) fields') as Hp'
      by (unfold selected; by rewrite Hp).
    by rewrite <- (sort_by_perm_unique _ _ _ Hp' Hnd).
  - apply sorted_le_nodup_lt; [done|].
    apply (NoDup_fmap_1 Some). rewrite <- Horders. by rewrite Hperm.
Qed.

Lemma get_unique_fields_order_independent_witness :
  exists r orders,
    get_unique_fields Py3 (mkDataSchema [Scenario.A; Scenario.note; Scenario.B] None)
      = Ok (r, mkDataSchema [Scenario.A; Scenario.note; Scenario.B] (Some r)) /\
    get_unique_fields Py3 (mkDataSchema [Scenario.note; Scenario.B; Scenario.A] None)
      = Ok (r, mkDataSchema [Scenario.note; Scenario.B; Scenario.A] (Some r)) /\
    uniqueness_order <$> r = Some <$> orders /\
    StronglySorted Z.lt orders.
Proof.
  apply get_unique_fields_order_independent.
  - change ([Scenario.A] ++ [Scenario.note; Scenario.B]
            ≡ₚ [Scenario.note; Scenario.B] ++ [Scenario.A]).
    apply Permutation_app_comm.
  - apply (bool_decide_unpack _). vm_compute. exact I.
Defined.

(** On Python 2 the fields without a position come first, in the order the
    collection has them, and the fields with a position follow in ascending
    order. *)
Theorem get_fields_py2_nulls_first self :
  exists rest,
    get_fields Py2 self
      = Ok (filter (fun f => field_position f = None) (fieldschema_set self) ++ rest, self) /\
    rest ≡ₚ filter (fun f => field_position f <> None) (fieldschema_set self) /\
    exists positions,
      field_position <$> rest = Some <$> positions /\ StronglySorted Z.le positions.
Proof.
  set (placed := filter (fun f => field_position f <> None) (fieldschema_set self)).
  exists (sort_by field_position placed).
  split; [|split].
  - unfold get_fields. by rewrite py_sorted_py2, sort_by_none_first.
  - apply sort_by_perm.
  - apply sorted_int_keys; [|apply sort_by_sorted].
    rewrite sort_by_perm. apply Forall_forall. intros f Hf.
    apply list_elem_of_filter in Hf as [Hf _].
    destruct (field_position f); [eauto | done].
Qed.

(** The two interpreters agree on [get_unique_fields], and on [get_fields]
    wherever Python 3 returns. *)
Theorem interpreters_agree self :
  get_unique_fields Py2 self = get_unique_fields Py3 self /\
  (forall x, get_fields Py3 self = Ok x -> get_fields Py2 self = Ok x).
Proof.
  split.
  - destruct self as [fields [cached|]]; [done|].
    by rewrite !get_unique_fields_first.
  - intros [r self'] H. apply get_fields_ok in H as [-> ->].
    unfold get_fields. by rewrite py_sorted_py2.
Qed.

(** [get_unique_fields] changes nothing of the instance but the list it
    stores, which is the list it returns: the field collection is as it was,
    and [get_fields] answers after the call as before it. *)
Theorem get_unique_fields_keeps_fields py self u self' :
  get_unique_fields py self = Ok (u, self') ->
  fieldschema_set self' = fieldschema_set self /\
  _unique_fields self' = Some u /\
  get_fields py self'
    = (let! listed := get_fields py self in Ok (fst listed, self')).
Proof.
  intros H. assert (fieldschema_set self' = fieldschema_set self) as Hf.
  { unfold get_unique_fields in H. destruct (_unique_fields self).
    - by simplify_eq.
    - destruct (py_sorted _ _ _); simpl in H; by simplify_eq. }
  split; [done|]. split; [by eapply get_unique_fields_cached|].
  unfold get_fields. rewrite Hf.
  by destruct (py_sorted py field_position (fieldschema_set self)).
Qed.

Lemma get_unique_fields_keeps_fields_witness :
  let self' := mkDataSchema [Scenario.A; Scenario.B] (Some [Scenario.B; Scenario.A]) in
  fieldschema_set self' = fieldschema_set Scenario.S /\
  _unique_fields self' = Some [Scenario.B; Scenario.A] /\
  get_fields Py3 self'
    = (let! listed := get_fields Py3 Scenario.S in Ok (fst listed, self')).
Proof.
  exact (get_unique_fields_keeps_fields Py3 Scenario.S [Scenario.B; Scenario.A] _ eq_refl).
Defined.

(** * Further properties of FieldSchema *)

Lemma list_index_None {V : Type} (l : list V) p :
  list_index l p = None ->
  p < - Z.of_nat (length l) \/ Z.of_nat (length l) <= p.
Proof.
  intros Hn.
  destruct (Z.lt_ge_cases p (- Z.of_nat (length l))); [by left|].
  destruct (Z.lt_ge_cases p (Z.of_nat (length l))); [|by right].
  destruct (list_index_in_range l p) as (n & Hs & _); [lia | congruence].
Qed.

Lemma set_value_list self items p n v :
  field_position self = Some p -> list_index items p = Some n ->
  set_value self (PyList items) v = Ok (PyList (<[n := v]> items)).
Proof. intros Hp Hn. unfold set_value, list_setitem. by rewrite Hp, Hn. Qed.

Lemma raw_value_list tuple_attrs self items p n :
  field_position self = Some p -> list_index items p = Some n ->
  raw_value tuple_attrs self (PyList items)
    = match items !! n with Some v => Ok v | None => Raise IndexError end.
Proof. intros Hp Hn. unfold raw_value, list_getitem. by rewrite Hp, Hn. Qed.

Lemma writable_list_index self items :
  writable self (PyList items) ->
  exists p n, field_position self = Some p /\ list_index items p = Some n /\
              (n < length items)%nat.
Proof.
  intros (p & Hp & Hrange).
  destruct (list_index_in_range items p Hrange) as (n & Hn & Hlt). eauto 6.
Qed.

Section AccessingMore.
Variable tuple_attrs : gmap string value.
Variable convert_value : pytype -> value -> option string -> result value.

(** Reading a field back after writing it: [get_value] returns what
    [convert_value] makes of the value written, whatever the object held
    before, also where the field did not exist on it. *)
Theorem get_value_after_set_value self obj v :
  writable self obj ->
  exists obj',
    set_value self obj v = Ok obj' /\
    get_value tuple_attrs convert_value self obj'
      = (let! python_type := dict_getitem FIELD_SCHEMA_PYTHON_TYPES (field_type self) in
         convert_value python_type v (field_format self)).
Proof.
  destruct obj as [items|entries|[items|attrs]]; intros Hw; [| | done |].
  - destruct (writable_list_index _ _ Hw) as (p & n & Hp & Hn & Hlt).
    eexists. split; [by apply (set_value_list self items p n)|].
    apply get_value_raw. rewrite (raw_value_list _ _ _ p n).
    + by rewrite list_lookup_insert_eq.
    + done.
    + by rewrite (list_index_length _ items) by apply length_insert.
  - eexists. split; [done|]. apply get_value_raw.
    unfold raw_value, dict_getitem. by rewrite lookup_insert_eq.
  - eexists. split; [done|]. apply get_value_raw.
    unfold raw_value, getattr. by rewrite lookup_insert_eq.
Qed.

(** Writing a field twice leaves the object as the second write alone would
    have. *)
Theorem set_value_overwrites self obj v1 v2 :
  writable self obj ->
  exists obj1 obj2,
    set_value self obj v1 = Ok obj1 /\
    set_value self obj1 v2 = Ok obj2 /\
    set_value self obj v2 = Ok obj2.
Proof.
  destruct obj as [items|entries|[items|attrs]]; intros Hw; [| | done |].
  - destruct (writable_list_index _ _ Hw) as (p & n & Hp & Hn & Hlt).
    exists (PyList (<[n := v1]> items)), (PyList (<[n := v2]> items)).
    split; [by apply (set_value_list self items p n)|].
    split; [|by apply (set_value_list self items p n)].
    rewrite (set_value_list _ _ p n); [by rewrite list_insert_insert_eq | done |].
    by rewrite (list_index_length _ items) by apply length_insert.
  - eexists _, _. split; [done|]. simpl. by rewrite insert_insert_eq.
  - eexists _, _. split; [done|]. simpl. by rewrite insert_insert_eq.
Qed.

(** Writing one field changes nothing of what another field reads, if the
    two resolve to different slots of the object. *)
Theorem set_value_other_field f g obj v obj' :
  set_value f obj v = Ok obj' ->
  field_slot g obj <> field_slot f obj ->
  raw_value tuple_attrs g obj' = raw_value tuple_attrs g obj /\
  get_value tuple_attrs convert_value g obj' = get_value tuple_attrs convert_value g obj.
Proof.
  intros Hset Hne.
  assert (raw_value tuple_attrs g obj' = raw_value tuple_attrs g obj) as Hraw;
    [|split; [done | unfold get_value; by rewrite Hraw]].
  destruct obj as [items|entries|[items|attrs]]; simpl in Hset, Hne.
  - unfold list_setitem in Hset.
    destruct (field_position f) as [p|]; [|done].
    destruct (list_index items p) as [n|] eqn:Hn; simpl in Hset, Hne; [|done].
    injection Hset as <-. unfold raw_value, list_getitem.
    destruct (field_position g) as [q|]; [|done].
    rewrite (list_index_length (<[n := v]> items) items) by apply length_insert.
    destruct (list_index items q) as [m|]; simpl in Hne; [|done].
    rewrite list_lookup_insert_ne; [done | congruence].
  - injection Hset as <-. unfold raw_value, dict_getitem.
    rewrite lookup_insert_ne; [done | congruence].
  - done.
  - injection Hset as <-. unfold raw_value, getattr.
    rewrite lookup_insert_ne; [done | congruence].
Qed.

(** Two fields that resolve to different slots of an object can be written
    in either order. *)
Theorem set_value_commutes f g obj v w :
  writable f obj -> writable g obj ->
  field_slot f obj <> field_slot g obj ->
  (let! obj1 := set_value f obj v in set_value g obj1 w)
    = (let! obj2 := set_value g obj w in set_value f obj2 v) /\
  exists obj', (let! obj1 := set_value f obj v in set_value g obj1 w) = Ok obj'.
Proof.
  destruct obj as [items|entries|[items|attrs]]; intros Hf Hg Hne; [| | done |].
  - destruct (writable_list_index _ _ Hf) as (p & n & Hp & Hn & _).
    destruct (writable_list_index _ _ Hg) as (q & m & Hq & Hm & _).
    simpl in Hne. rewrite Hp, Hq, Hn, Hm in Hne. simpl in Hne.
    rewrite (set_value_list f items p n) by done.
    rewrite (set_value_list g items q m) by done. cbn [bind].
    rewrite (set_value_list g _ q m), (set_value_list f _ p n);
      try done; try by rewrite (list_index_length _ items) by apply length_insert.
    split; [|by eexists].
    rewrite list_insert_insert_ne; [done | congruence].
  - simpl in *. split; [|by eexists].
    rewrite insert_insert_ne; [done | congruence].
  - simpl in *. split; [|by eexists].
    rewrite insert_insert_ne; [done | congruence].
Qed.
End AccessingMore.

(** [set_value] never changes the kind of an object nor the length of a
    list; to a dict and to an instance it adds the key of the field, if they
    lack it, and nothing else. *)
Theorem set_value_shape self obj v obj' :
  set_value self obj v = Ok obj' ->
  match obj, obj' with
  | PyList items, PyList items' => length items' = length items
  | PyDict entries, PyDict entries' => dom entries' = {[field_key self]} ∪ dom entries
  | PyOther (Instance attrs), PyOther (Instance attrs') =>
      dom attrs' = {[field_key self]} ∪ dom attrs
  | _, _ => False
  end.
Proof.
  destruct obj as [items|entries|[items|attrs]]; simpl; intros H.
  - destruct (list_setitem items (field_position self) v) as [items'|] eqn:E;
      simpl in H; [|done].
    injection H as <-. unfold list_setitem in E.
    destruct (field_position self) as [p|]; [|done].
    destruct (list_index items p); [|done].
    injection E as <-. apply length_insert.
  - injection H as <-. apply dom_insert_L.
  - done.
  - injection H as <-. apply dom_insert_L.
Qed.

(** [set_value] returns exactly where the object takes the assignment; a
    list raises [TypeError] for a field without a position and [IndexError]
    for a position outside it, and is never extended. *)
Theorem set_value_returns_iff self v :
  (forall obj, (exists obj', set_value self obj v = Ok obj') <-> writable self obj) /\
  (forall items,
     field_position self = None ->
     set_value self (PyList items) v = Raise TypeError) /\
  (forall items p,
     field_position self = Some p ->
     p < - Z.of_nat (length items) \/ Z.of_nat (length items) <= p ->
     set_value self (PyList items) v = Raise IndexError).
Proof.
  split; [|split].
  - intros obj. split.
    + intros [obj' H].
      destruct obj as [items|entries|[items|attrs]]; simpl in *; try done.
      unfold list_setitem in H.
      destruct (field_position self) as [p|]; [|done].
      destruct (list_index items p) as [n|] eqn:Hn; [|done].
      exists p. split; [done|].
      destruct (Z.lt_ge_cases p (- Z.of_nat (length items))) as [Hlo|Hlo].
      { rewrite list_index_out_of_range in Hn by (by left). done. }
      destruct (Z.lt_ge_cases p (Z.of_nat (length items))) as [Hhi|Hhi]; [lia|].
      rewrite list_index_out_of_range in Hn by (by right). done.
    + intros Hw. destruct obj as [items|entries|[items|attrs]]; try done.
      * destruct (writable_list_index _ _ Hw) as (p & n & Hp & Hn & _).
        eexists. by apply (set_value_list self items p n).
      * by eexists.
      * by eexists.
  - intros items Hp. unfold set_value, list_setitem. by rewrite Hp.
  - intros items p Hp Hout. unfold set_value, list_setitem.
    by rewrite Hp, list_index_out_of_range.
Qed.

(** On a list of length n the positions p and p - n, for p from 0 to n - 1,
    are one slot: two fields with these positions read the same value and
    write the same place. *)
Theorem list_position_alias tuple_attrs f g items p v :
  field_position f = Some p ->
  field_position g = Some (p - Z.of_nat (length items)) ->
  0 <= p < Z.of_nat (length items) ->
  raw_value tuple_attrs f (PyList items) = raw_value tuple_attrs g (PyList items) /\
  set_value f (PyList items) v = set_value g (PyList items) v.
Proof.
  intros Hf Hg Hp.
  assert (list_index items p = Some (Z.to_nat p)) as Hn
    by (apply list_index_nonneg; lia).
  assert (list_index items (p - Z.of_nat (length items)) = Some (Z.to_nat p)) as Hm.
  { rewrite list_index_negative by lia. do 2 f_equal. lia. }
  split.
  - by rewrite (raw_value_list _ f items _ _ Hf Hn), (raw_value_list _ g items _ _ Hg Hm).
  - by rewrite (set_value_list f items _ _ v Hf Hn), (set_value_list g items _ _ v Hg Hm).
Qed.

(** What a failed read of [get_value] raises, by the kind of the object. *)
Theorem raw_value_raises tuple_attrs self obj e :
  raw_value tuple_attrs self obj = Raise e ->
  match obj with
  | PyList items =>
      (field_position self = None /\ e = TypeError) \/
      (exists p, field_position self = Some p /\ e = IndexError /\
                 (p < - Z.of_nat (length items) \/ Z.of_nat (length items) <= p))
  | PyDict entries =>
      entries !! field_key self = None /\ e = KeyError (field_key self)
  | PyOther (Instance attrs) =>
      attrs !! field_key self = None /\ e = AttributeError (field_key self)
  | PyOther (Tuple _) =>
      tuple_attrs !! field_key self = None /\ e = AttributeError (field_key self)
  end.
Proof.
  destruct obj as [items|entries|[items|attrs]]; simpl.
  - unfold list_getitem. destruct (field_position self) as [p|]; [|left; by simplify_eq].
    intros H. right. exists p. split; [done|].
    destruct (list_index items p) as [n|] eqn:Hn.
    + apply list_index_lt in Hn. apply lookup_lt_is_Some in Hn as [x Hx].
      by rewrite Hx in H.
    + split; [congruence | by apply list_index_None].
  - unfold dict_getitem. destruct (entries !! field_key self); [done|].
    intros H. by simplify_eq.
  - unfold getattr. destruct (tuple_attrs !! field_key self); [done|].
    intros H. by simplify_eq.
  - unfold getattr. destruct (attrs !! field_key self); [done|].
    intros H. by simplify_eq.
Qed.

(** Every outcome of [get_value] has one of three origins, tried in this
    order: the read of the object, the table of Python types, the
    conversion.  A value returned is a value [convert_value] returned; an
    exception is that of the failed read, else the [KeyError] of an
    unsupported field type, else that of [convert_value]. *)
Theorem get_value_outcome tuple_attrs convert_value self obj :
  (forall w, get_value tuple_attrs convert_value self obj = Ok w ->
     exists v python_type,
       raw_value tuple_attrs self obj = Ok v /\
       FIELD_SCHEMA_PYTHON_TYPES !! field_type self = Some python_type /\
       convert_value python_type v (field_format self) = Ok w) /\
  (forall e, get_value tuple_attrs convert_value self obj = Raise e ->
     raw_value tuple_attrs self obj = Raise e \/
     (exists v, raw_value tuple_attrs self obj = Ok v /\
                FIELD_SCHEMA_PYTHON_TYPES !! field_type self = None /\
                e = KeyError (field_type self)) \/
     (exists v python_type,
        raw_value tuple_attrs self obj = Ok v /\
        FIELD_SCHEMA_PYTHON_TYPES !! field_type self = Some python_type /\
        convert_value python_type v (field_format self) = Raise e)).
Proof.
  unfold get_value, dict_getitem.
  destruct (raw_value tuple_attrs self obj) as [v|e0]; simpl.
  - destruct (FIELD_SCHEMA_PYTHON_TYPES !! field_type self) as [python_type|]; simpl.
    + split; [intros w H; by eauto|]. intros e H. right; right. by eauto.
    + split; [done|]. intros e H. right; left. exists v. by simplify_eq.
  - split; [done|]. intros e H. left. by simplify_eq.
Qed.

(** ** Instances *)

Lemma get_value_after_set_value_witness :
  writable Scenario.A (PyDict ∅) /\
  exists obj',
    set_value Scenario.A (PyDict ∅) (VStr "5") = Ok obj' /\
    get_value Scenario.tuple_methods Scenario.convert Scenario.A obj'
      = (let! python_type :=
           dict_getitem FIELD_SCHEMA_PYTHON_TYPES (field_type Scenario.A) in
         Scenario.convert python_type (VStr "5") (field_format Scenario.A)).
Proof.
  split; [exact I|].
  exact (get_value_after_set_value Scenario.tuple_methods Scenario.convert
           Scenario.A (PyDict ∅) (VStr "5") I).
Defined.

Lemma set_value_overwrites_witness :
  writable Scenario.B (PyList [VStr "5"; VStr "x"]) /\
  exists obj1 obj2,
    set_value Scenario.B (PyList [VStr "5"; VStr "x"]) (VStr "y") = Ok obj1 /\
    set_value Scenario.B obj1 (VStr "z") = Ok obj2 /\
    set_value Scenario.B (PyList [VStr "5"; VStr "x"]) (VStr "z") = Ok obj2.
Proof.
  assert (writable Scenario.B (PyList [VStr "5"; VStr "x"])) as Hw.
  { exists 1. split; [reflexivity | simpl; lia]. }
  split; [exact Hw|].
  exact (set_value_overwrites Scenario.B (PyList [VStr "5"; VStr "x"])
           (VStr "y") (VStr "z") Hw).
Defined.

Lemma set_value_other_field_witness :
  let obj := PyList [VStr "5"; VStr "x"] in
  let obj' := PyList [VStr "6"; VStr "x"] in
  set_value Scenario.A obj (VStr "6") = Ok obj' /\
  raw_value Scenario.tuple_methods Scenario.B obj'
    = raw_value Scenario.tuple_methods Scenario.B obj /\
  get_value Scenario.tuple_methods Scenario.convert Scenario.B obj'
    = get_value Scenario.tuple_methods Scenario.convert Scenario.B obj.
Proof.
  intros obj obj'. split; [reflexivity|].
  apply (set_value_other_field Scenario.tuple_methods Scenario.convert
           Scenario.A Scenario.B obj (VStr "6") obj'); [reflexivity|].
  vm_compute. discriminate.
Defined.

Lemma set_value_commutes_witness :
  let obj := PyOther (Instance ∅) in
  (let! obj1 := set_value Scenario.A obj (VInt 1) in set_value Scenario.B obj1 (VInt 2))
    = (let! obj2 := set_value Scenario.B obj (VInt 2) in set_value Scenario.A obj2 (VInt 1)) /\
  exists obj',
    (let! obj1 := set_value Scenario.A obj (VInt 1) in set_value Scenario.B obj1 (VInt 2))
      = Ok obj'.
Proof.
  intros obj.
  apply (set_value_commutes Scenario.A Scenario.B obj (VInt 1) (VInt 2) I I).
  vm_compute. discriminate.
Defined.

Lemma set_value_shape_witness :
  set_value Scenario.A (PyDict ∅) (VInt 1) = Ok (PyDict (<["a" := VInt 1]> ∅)) /\
  dom (<["a" := VInt 1]> (∅ : gmap string value))
    = {[field_key Scenario.A]} ∪ dom (∅ : gmap string value).
Proof.
  split; [reflexivity|].
  exact (set_value_shape Scenario.A (PyDict ∅) (VInt 1)
           (PyDict (<["a" := VInt 1]> ∅)) eq_refl).
Defined.

Lemma list_position_alias_witness :
  let last := mkFieldSchema "last" None (Some (-1)) "STRING" None in
  raw_value Scenario.tuple_methods Scenario.B (PyList [VStr "5"; VStr "x"])
    = raw_value Scenario.tuple_methods last (PyList [VStr "5"; VStr "x"]) /\
  set_value Scenario.B (PyList [VStr "5"; VStr "x"]) (VStr "y")
    = set_value last (PyList [VStr "5"; VStr "x"]) (VStr "y").
Proof.
  intros last.
  apply (list_position_alias Scenario.tuple_methods Scenario.B last
           [VStr "5"; VStr "x"] 1 (VStr "y")); [reflexivity | reflexivity | simpl; lia].
Defined.

Lemma raw_value_raises_witness :
  raw_value Scenario.tuple_methods Scenario.note (PyList [VStr "5"]) = Raise TypeError /\
  ((field_position Scenario.note = None /\ TypeError = TypeError) \/
   (exists p, field_position Scenario.note = Some p /\ TypeError = IndexError /\
              (p < - Z.of_nat (length [VStr "5"]) \/ Z.of_nat (length [VStr "5"]) <= p))).
Proof.
  split; [reflexivity|].
  exact (raw_value_raises Scenario.tuple_methods Scenario.note (PyList [VStr "5"])
           TypeError eq_refl).
Defined.
